(** * MelonDSAndroidIRHandler: the native-to-host IR transport bridge

    A shallow embedding of [MelonDSAndroidIRHandler.cpp].  Every method of
    the handler is a straight-line sequence of JNI calls with early returns;
    it is written here as a computation in a state monad over the part of
    the runtime the calls touch: the handler object itself, the table of
    live JNI local references, the host-side [IRManager] object, and the
    chronological trace of JNI calls and log lines. *)

From Stdlib Require Import ZArith.
From stdpp Require Import base gmap list strings.

Open Scope string_scope.
Open Scope list_scope.
Open Scope Z_scope.

(** ** Data *)

Abbreviation byte := Byte.byte.

(** A [JniEnvHandler*] and a [jobject] held in a field: an address or a
    global reference.  The null pointer is [None] at the use site. *)
Definition JniEnvHandlerPtr := nat.
Definition jobject := nat.

(** [JNIEnv*]: the call context of the current thread. *)
Inductive JNIEnv := ThreadEnv.

(** A JNI local reference (the [jclass] returned by [GetObjectClass], the
    [jbyteArray] returned by [NewByteArray]). *)
Definition jref := nat.

(** What a local reference designates. *)
Inductive JObject :=
| JByteArray (elems : list byte)
| JClass.

Record jmethodID := MethodID { method_name : string; method_sig : string }.

(** [jboolean] is an unsigned 8-bit integer; [jint] and C++ [int] are both
    32-bit and no operation computes with them, so both are [Z]. *)
Definition jboolean := Z.
Definition JNI_FALSE : jboolean := 0.
Definition JNI_TRUE : jboolean := 1.

Definition jboolean_of_bool (b : bool) : jboolean :=
  if b then JNI_TRUE else JNI_FALSE.

(** The implicit conversion of [return result;] in a function returning
    [bool]: every nonzero value is [true]. *)
Definition bool_of_jboolean (z : jboolean) : bool := negb (z =? 0).

Inductive LogPriority := ANDROID_LOG_DEBUG | ANDROID_LOG_ERROR.

Inductive Event :=
| EvLog (prio : LogPriority) (fmt : string) (args : list Z)
| EvGetCurrentThreadEnv (ok : bool)
| EvNewByteArray (len : Z) (r : option jref)
| EvSetByteArrayRegion (arr : jref) (start len : Z)
| EvGetByteArrayRegion (arr : jref) (start len : Z)
| EvGetObjectClass (obj : jobject) (r : option jref)
| EvGetMethodID (cls : jref) (name sig : string) (found : bool)
| EvCallBooleanMethod (obj : jobject) (m : jmethodID)
| EvCallIntMethod (obj : jobject) (m : jmethodID) (arr : jref) (n : Z)
| EvCallVoidMethod (obj : jobject) (m : jmethodID)
| EvDeleteLocalRef (r : jref).

(** The two private fields of the class. *)
Record MelonDSAndroidIRHandler := Handler {
  jniEnvHandler : option JniEnvHandlerPtr;
  irManager : option jobject
}.

(** The host-managed peripheral object.  Its class is not part of this
    unit; it is a parameter of the development.  [H] is whatever state the
    host object keeps.  A read method receives the elements of the array it
    was handed and answers with the bytes it stores into it and its count. *)
Record IRManager (H : Type) := {
  java_openSerial : H -> bool * H;
  java_closeSerial : H -> H;
  java_writeSerial : list byte -> Z -> H -> Z * H;
  java_readSerial : list byte -> Z -> H -> (list byte * Z) * H;
  java_isSerialOpen : H -> bool * H;
  java_openTCP : H -> bool * H;
  java_closeTCP : H -> H;
  java_writeTCP : list byte -> Z -> H -> Z * H;
  java_readTCP : list byte -> Z -> H -> (list byte * Z) * H;
  java_isTCPOpen : H -> bool * H;
  java_hasDataAvailable : H -> bool * H
}.

Arguments java_openSerial {H}.
Arguments java_closeSerial {H}.
Arguments java_writeSerial {H}.
Arguments java_readSerial {H}.
Arguments java_isSerialOpen {H}.
Arguments java_openTCP {H}.
Arguments java_closeTCP {H}.
Arguments java_writeTCP {H}.
Arguments java_readTCP {H}.
Arguments java_isTCPOpen {H}.
Arguments java_hasDataAvailable {H}.

(** The state the methods run in.  The first four fields say how the
    runtime answers the calls that may fail: [getCurrentThreadEnv] of
    [JniEnvHandler] (declared in [JniEnvHandler.h], outside this unit),
    [NewByteArray] for a given length, [GetObjectClass], and [GetMethodID]
    for a given name and signature.  They are parameters: the statements
    below hold for every choice, and the methods never change them. *)
#[projections(primitive)]
Record State (H : Type) := MkState {
  thread_env : bool;
  array_alloc : Z -> bool;
  class_found : bool;
  method_found : string -> string -> bool;
  self : MelonDSAndroidIRHandler;
  peer : H;
  locals : gmap nat JObject;
  trace : list Event
}.

Arguments MkState {H}.
Arguments thread_env {H}.
Arguments array_alloc {H}.
Arguments class_found {H}.
Arguments method_found {H}.
Arguments self {H}.
Arguments peer {H}.
Arguments locals {H}.
Arguments trace {H}.

(** ** Regions of byte arrays *)

(** The bounds check of [Get/SetByteArrayRegion]: a region that leaves the
    array raises [ArrayIndexOutOfBoundsException] and moves no byte. *)
Definition region_valid (elems : list byte) (start len : Z) : bool :=
  (0 <=? start) && (0 <=? len) && (start + len <=? Z.of_nat (length elems)).

(** [len] bytes of the native buffer [buf] stored at [start].  Bytes read
    past the end of what the caller handed over are taken as zero. *)
Definition set_region (elems : list byte) (start len : Z) (buf : list byte)
  : list byte :=
  take (Z.to_nat start) elems
  ++ resize (Z.to_nat len) Byte.x00 buf
  ++ drop (Z.to_nat (start + len)) elems.

(** [len] elements from [start] stored at offset 0 of the native buffer.
    The buffer is a bare pointer: one shorter than [len] is overrun, and
    the result is then longer than the buffer was. *)
Definition get_region (elems : list byte) (start len : Z) (buf : list byte)
  : list byte :=
  take (Z.to_nat len) (drop (Z.to_nat start) elems) ++ drop (Z.to_nat len) buf.

(** A Java method stores into an array without changing its length. *)
Definition overwrite (elems new : list byte) : list byte :=
  take (length elems) (new ++ drop (length new) elems).

Arguments region_valid : simpl never.
Arguments set_region : simpl never.
Arguments get_region : simpl never.
Arguments overwrite : simpl never.

Definition array_elems (o : option JObject) : list byte :=
  match o with
  | Some (JByteArray elems) => elems
  | _ => []
  end.

(** ** Two host objects and a few starting states

    Used for the concrete runs at the end. *)

(** A host object that queues what is written and hands it back, never
    more than [maxLength] bytes at a time. *)
Definition loopback : IRManager (list byte) := {|
  java_openSerial h := (true, h);
  java_closeSerial h := h;
  java_writeSerial a n h := (n, h ++ a);
  java_readSerial a n h :=
    ((take (Z.to_nat n) h, Z.of_nat (length (take (Z.to_nat n) h))),
     drop (Z.to_nat n) h);
  java_isSerialOpen h := (true, h);
  java_openTCP h := (true, h);
  java_closeTCP h := h;
  java_writeTCP a n h := (n, h ++ a);
  java_readTCP a n h :=
    ((take (Z.to_nat n) h, Z.of_nat (length (take (Z.to_nat n) h))),
     drop (Z.to_nat n) h);
  java_isTCPOpen h := (true, h);
  java_hasDataAvailable h := (negb (bool_decide (h = [])), h)
|}.

(** A host object whose read methods store what fits into the array but
    answer with the number of bytes that were pending. *)
Definition eager : IRManager (list byte) := {|
  java_openSerial h := (true, h);
  java_closeSerial h := h;
  java_writeSerial a n h := (n, h ++ a);
  java_readSerial a n h := ((h, Z.of_nat (length h)), []);
  java_isSerialOpen h := (true, h);
  java_openTCP h := (true, h);
  java_closeTCP h := h;
  java_writeTCP a n h := (n, h ++ a);
  java_readTCP a n h := ((h, Z.of_nat (length h)), []);
  java_isTCPOpen h := (true, h);
  java_hasDataAvailable h := (negb (bool_decide (h = [])), h)
|}.

Definition some_bytes : list byte := [Byte.x01; Byte.x02; Byte.x03].
Definition blank : list byte := [Byte.xff; Byte.xff; Byte.xff; Byte.xff].

(** Everything resolves; the host object holds [h]. *)
Definition ready (h : list byte) : State (list byte) :=
  MkState true (fun _ => true) true (fun _ _ => true)
          (Handler (Some 1%nat) (Some 2%nat)) h ∅ [].

(** The handler was built without an [irManager]. *)
Definition unbound (h : list byte) : State (list byte) :=
  MkState true (fun _ => true) true (fun _ _ => true)
          (Handler (Some 1%nat) None) h ∅ [].

(** No transfer array can be allocated. *)
Definition out_of_memory (h : list byte) : State (list byte) :=
  MkState true (fun _ => false) true (fun _ _ => true)
          (Handler (Some 1%nat) (Some 2%nat)) h ∅ [].

(** The current thread has no JNI environment. *)
Definition detached (h : list byte) : State (list byte) :=
  MkState false (fun _ => true) true (fun _ _ => true)
          (Handler (Some 1%nat) (Some 2%nat)) h ∅ [].

(** The class of the host object declares none of the methods. *)
Definition stripped (h : list byte) : State (list byte) :=
  MkState true (fun _ => true) true (fun _ _ => false)
          (Handler (Some 1%nat) (Some 2%nat)) h ∅ [].

(** ** The state monad *)

Section Bridge.

Context {H : Type}.
Variable host : IRManager H.

Definition M (A : Type) : Type := State H -> A * State H.

Definition ret {A} (a : A) : M A := fun s => (a, s).

Definition bind {A B} (c : M A) (k : A -> M B) : M B :=
  fun s => let (a, s') := c s in k a s'.

Notation "x <- c1 ;; c2" := (bind c1 (fun x => c2))
  (at level 100, c1 at next level, right associativity).
Notation "c1 ;; c2" := (bind c1 (fun _ => c2))
  (at level 100, right associativity).

Definition emit (e : Event) (s : State H) : State H :=
  MkState (thread_env s) (array_alloc s) (class_found s) (method_found s)
          (self s) (peer s) (locals s) (trace s ++ [e]).

Definition set_locals (m : gmap nat JObject) (s : State H) : State H :=
  MkState (thread_env s) (array_alloc s) (class_found s) (method_found s)
          (self s) (peer s) m (trace s).

Definition set_peer (h : H) (s : State H) : State H :=
  MkState (thread_env s) (array_alloc s) (class_found s) (method_found s)
          (self s) h (locals s) (trace s).

Definition set_self (o : MelonDSAndroidIRHandler) (s : State H) : State H :=
  MkState (thread_env s) (array_alloc s) (class_found s) (method_found s)
          o (peer s) (locals s) (trace s).

Definition this : M MelonDSAndroidIRHandler := fun s => (self s, s).

Definition LOGD (fmt : string) (args : list Z) : M unit :=
  fun s => (tt, emit (EvLog ANDROID_LOG_DEBUG fmt args) s).

Definition LOGE (fmt : string) (args : list Z) : M unit :=
  fun s => (tt, emit (EvLog ANDROID_LOG_ERROR fmt args) s).

(** ** The runtime calls

    The JNI functions the handler uses, after the JNI specification.  A
    call that fails also leaves a Java exception pending in the thread;
    the handler never inspects or clears it, and it is not part of the
    state. *)

Definition getCurrentThreadEnv (_ : JniEnvHandlerPtr) : M (option JNIEnv) :=
  fun s =>
    if thread_env s
    then (Some ThreadEnv, emit (EvGetCurrentThreadEnv true) s)
    else (None, emit (EvGetCurrentThreadEnv false) s).

(** A new array of [len] zero bytes behind a fresh local reference, or
    null.  What a negative [len] gives is the runtime's answer as well; an
    array it grants then has no element. *)
Definition NewByteArray (_ : JNIEnv) (len : Z) : M (option jref) :=
  fun s =>
    if array_alloc s len then
      let r := fresh (dom (locals s)) in
      let a := JByteArray (replicate (Z.to_nat len) Byte.x00) in
      (Some r, emit (EvNewByteArray len (Some r))
                    (set_locals (<[r := a]> (locals s)) s))
    else (None, emit (EvNewByteArray len None) s).

(** Both region functions check the region against the array and do
    nothing when it does not fit. *)
Definition SetByteArrayRegion (_ : JNIEnv) (arr : jref) (start len : Z)
    (buf : list byte) : M unit :=
  fun s =>
    let s' := emit (EvSetByteArrayRegion arr start len) s in
    match locals s !! arr with
    | Some (JByteArray elems) =>
        if region_valid elems start len
        then (tt, set_locals
                    (<[arr := JByteArray (set_region elems start len buf)]>
                       (locals s)) s')
        else (tt, s')
    | _ => (tt, s')
    end.

(** The native buffer is an out-parameter: the call returns it. *)
Definition GetByteArrayRegion (_ : JNIEnv) (arr : jref) (start len : Z)
    (buf : list byte) : M (list byte) :=
  fun s =>
    let s' := emit (EvGetByteArrayRegion arr start len) s in
    match locals s !! arr with
    | Some (JByteArray elems) =>
        if region_valid elems start len
        then (get_region elems start len buf, s')
        else (buf, s')
    | _ => (buf, s')
    end.

Definition GetObjectClass (_ : JNIEnv) (obj : jobject) : M (option jref) :=
  fun s =>
    if class_found s then
      let r := fresh (dom (locals s)) in
      (Some r, emit (EvGetObjectClass obj (Some r))
                    (set_locals (<[r := JClass]> (locals s)) s))
    else (None, emit (EvGetObjectClass obj None) s).

Definition GetMethodID (_ : JNIEnv) (cls : jref) (name sig : string)
  : M (option jmethodID) :=
  fun s =>
    if method_found s name sig
    then (Some (MethodID name sig), emit (EvGetMethodID cls name sig true) s)
    else (None, emit (EvGetMethodID cls name sig false) s).

Definition DeleteLocalRef (_ : JNIEnv) (r : jref) : M unit :=
  fun s => (tt, emit (EvDeleteLocalRef r) (set_locals (delete r (locals s)) s)).

(** Virtual dispatch on the host object, by the name the method ID was
    resolved from. *)
Definition dispatch_boolean (name : string) : option (H -> bool * H) :=
  if String.eqb name "openSerial" then Some (java_openSerial host)
  else if String.eqb name "isSerialOpen" then Some (java_isSerialOpen host)
  else if String.eqb name "openTCP" then Some (java_openTCP host)
  else if String.eqb name "isTCPOpen" then Some (java_isTCPOpen host)
  else if String.eqb name "hasDataAvailable"
       then Some (java_hasDataAvailable host)
  else None.

Definition dispatch_void (name : string) : option (H -> H) :=
  if String.eqb name "closeSerial" then Some (java_closeSerial host)
  else if String.eqb name "closeTCP" then Some (java_closeTCP host)
  else None.

Definition dispatch_int (name : string)
  : option (list byte -> Z -> H -> (list byte * Z) * H) :=
  if String.eqb name "writeSerial"
  then Some (fun a n h => let (r, h') := java_writeSerial host a n h in
                          ((a, r), h'))
  else if String.eqb name "writeTCP"
  then Some (fun a n h => let (r, h') := java_writeTCP host a n h in
                          ((a, r), h'))
  else if String.eqb name "readSerial" then Some (java_readSerial host)
  else if String.eqb name "readTCP" then Some (java_readTCP host)
  else None.

Definition CallBooleanMethod (_ : JNIEnv) (obj : jobject) (m : jmethodID)
  : M jboolean :=
  fun s =>
    let s' := emit (EvCallBooleanMethod obj m) s in
    match dispatch_boolean (method_name m) with
    | Some f => let (b, h') := f (peer s) in
                (jboolean_of_bool b, set_peer h' s')
    | None => (JNI_FALSE, s')
    end.

Definition CallVoidMethod (_ : JNIEnv) (obj : jobject) (m : jmethodID)
  : M unit :=
  fun s =>
    let s' := emit (EvCallVoidMethod obj m) s in
    match dispatch_void (method_name m) with
    | Some f => (tt, set_peer (f (peer s)) s')
    | None => (tt, s')
    end.

Definition CallIntMethod (_ : JNIEnv) (obj : jobject) (m : jmethodID)
    (arr : jref) (n : Z) : M Z :=
  fun s =>
    let s' := emit (EvCallIntMethod obj m arr n) s in
    match dispatch_int (method_name m) with
    | Some f =>
        let elems := array_elems (locals s !! arr) in
        let '(new, r, h') := f elems n (peer s) in
        (r, set_peer h'
              (set_locals (<[arr := JByteArray (overwrite elems new)]>
                             (locals s)) s'))
    | None => (0, s')
    end.

(** ** The handler *)

(** The constructor: the member initialisers run first, the body only logs. *)
Definition construct (jniEnvHandler_ : option JniEnvHandlerPtr)
    (irManager_ : option jobject) : M unit :=
  fun s =>
    let s' := set_self (Handler jniEnvHandler_ irManager_) s in
    match jniEnvHandler_, irManager_ with
    | Some _, Some _ => LOGD "IRHandler created successfully" [] s'
    | _, _ => LOGE "IRHandler created with null jniEnvHandler or irManager" [] s'
    end.

Definition openSerial : M bool :=
  h <- this ;;
  match jniEnvHandler h, irManager h with
  | Some jeh, Some irm =>
    env <- getCurrentThreadEnv jeh ;;
    match env with
    | None => LOGE "openSerial: Failed to get JNI environment" [] ;; ret false
    | Some env =>
      irManagerClass <- GetObjectClass env irm ;;
      match irManagerClass with
      | None => LOGE "openSerial: Failed to get IRManager class" [] ;; ret false
      | Some irManagerClass =>
        openMethod <- GetMethodID env irManagerClass "openSerial" "()Z" ;;
        match openMethod with
        | None =>
          LOGE "openSerial: Failed to get openSerial method" [] ;;
          DeleteLocalRef env irManagerClass ;;
          ret false
        | Some openMethod =>
          result <- CallBooleanMethod env irm openMethod ;;
          DeleteLocalRef env irManagerClass ;;
          LOGD "openSerial() = %d" [result] ;;
          ret (bool_of_jboolean result)
        end
      end
    end
  | _, _ => LOGE "openSerial: Handler not initialized" [] ;; ret false
  end.

Definition closeSerial : M unit :=
  h <- this ;;
  match jniEnvHandler h, irManager h with
  | Some jeh, Some irm =>
    env <- getCurrentThreadEnv jeh ;;
    match env with
    | None => ret tt
    | Some env =>
      irManagerClass <- GetObjectClass env irm ;;
      match irManagerClass with
      | None => ret tt
      | Some irManagerClass =>
        closeMethod <- GetMethodID env irManagerClass "closeSerial" "()V" ;;
        match closeMethod with
        | None => DeleteLocalRef env irManagerClass ;; ret tt
        | Some closeMethod =>
          CallVoidMethod env irm closeMethod ;;
          DeleteLocalRef env irManagerClass ;;
          LOGD "closeSerial() called" [] ;;
          ret tt
        end
      end
    end
  | _, _ => ret tt
  end.

Definition writeSerial (data : list byte) (length : Z) : M Z :=
  h <- this ;;
  match jniEnvHandler h, irManager h with
  | Some jeh, Some irm =>
    env <- getCurrentThreadEnv jeh ;;
    match env with
    | None => ret (-1)
    | Some env =>
      javaData <- NewByteArray env length ;;
      match javaData with
      | None => LOGE "Failed to allocate byte array" [] ;; ret (-1)
      | Some javaData =>
        SetByteArrayRegion env javaData 0 length data ;;
        irManagerClass <- GetObjectClass env irm ;;
        match irManagerClass with
        | None => DeleteLocalRef env javaData ;; ret (-1)
        | Some irManagerClass =>
          writeMethod <- GetMethodID env irManagerClass "writeSerial" "([BI)I" ;;
          match writeMethod with
          | None =>
            DeleteLocalRef env irManagerClass ;;
            DeleteLocalRef env javaData ;;
            ret (-1)
          | Some writeMethod =>
            result <- CallIntMethod env irm writeMethod javaData length ;;
            DeleteLocalRef env irManagerClass ;;
            DeleteLocalRef env javaData ;;
            ret result
          end
        end
      end
    end
  | _, _ => ret (-1)
  end.

(** [buffer] is an out-parameter: the method returns it next to its [int]. *)
Definition readSerial (buffer : list byte) (maxLength : Z)
  : M (Z * list byte) :=
  h <- this ;;
  match jniEnvHandler h, irManager h with
  | Some jeh, Some irm =>
    env <- getCurrentThreadEnv jeh ;;
    match env with
    | None => ret (0, buffer)
    | Some env =>
      javaBuffer <- NewByteArray env maxLength ;;
      match javaBuffer with
      | None => LOGE "Failed to allocate byte array" [] ;; ret (0, buffer)
      | Some javaBuffer =>
        irManagerClass <- GetObjectClass env irm ;;
        match irManagerClass with
        | None => DeleteLocalRef env javaBuffer ;; ret (0, buffer)
        | Some irManagerClass =>
          readMethod <- GetMethodID env irManagerClass "readSerial" "([BI)I" ;;
          match readMethod with
          | None =>
            DeleteLocalRef env irManagerClass ;;
            DeleteLocalRef env javaBuffer ;;
            ret (0, buffer)
          | Some readMethod =>
            bytesRead <- CallIntMethod env irm readMethod javaBuffer maxLength ;;
            buffer' <- (if 0 <? bytesRead
                        then GetByteArrayRegion env javaBuffer 0 bytesRead buffer
                        else ret buffer) ;;
            DeleteLocalRef env irManagerClass ;;
            DeleteLocalRef env javaBuffer ;;
            ret (bytesRead, buffer')
          end
        end
      end
    end
  | _, _ => ret (0, buffer)
  end.

Definition isSerialOpen : M bool :=
  h <- this ;;
  match jniEnvHandler h, irManager h with
  | Some jeh, Some irm =>
    env <- getCurrentThreadEnv jeh ;;
    match env with
    | None => ret false
    | Some env =>
      irManagerClass <- GetObjectClass env irm ;;
      match irManagerClass with
      | None => ret false
      | Some irManagerClass =>
        isOpenMethod <- GetMethodID env irManagerClass "isSerialOpen" "()Z" ;;
        match isOpenMethod with
        | None => DeleteLocalRef env irManagerClass ;; ret false
        | Some isOpenMethod =>
          result <- CallBooleanMethod env irm isOpenMethod ;;
          DeleteLocalRef env irManagerClass ;;
          ret (bool_of_jboolean result)
        end
      end
    end
  | _, _ => ret false
  end.

Definition openTCP : M bool :=
  h <- this ;;
  match jniEnvHandler h, irManager h with
  | Some jeh, Some irm =>
    env <- getCurrentThreadEnv jeh ;;
    match env with
    | None => LOGE "openTCP: Failed to get JNI environment" [] ;; ret false
    | Some env =>
      irManagerClass <- GetObjectClass env irm ;;
      match irManagerClass with
      | None => LOGE "openTCP: Failed to get IRManager class" [] ;; ret false
      | Some irManagerClass =>
        openMethod <- GetMethodID env irManagerClass "openTCP" "()Z" ;;
        match openMethod with
        | None =>
          LOGE "openTCP: Failed to get openTCP method" [] ;;
          DeleteLocalRef env irManagerClass ;;
          ret false
        | Some openMethod =>
          result <- CallBooleanMethod env irm openMethod ;;
          DeleteLocalRef env irManagerClass ;;
          LOGD "openTCP() = %d" [result] ;;
          ret (bool_of_jboolean result)
        end
      end
    end
  | _, _ => LOGE "openTCP: Handler not initialized" [] ;; ret false
  end.

Definition closeTCP : M unit :=
  h <- this ;;
  match jniEnvHandler h, irManager h with
  | Some jeh, Some irm =>
    env <- getCurrentThreadEnv jeh ;;
    match env with
    | None => ret tt
    | Some env =>
      irManagerClass <- GetObjectClass env irm ;;
      match irManagerClass with
      | None => ret tt
      | Some irManagerClass =>
        closeMethod <- GetMethodID env irManagerClass "closeTCP" "()V" ;;
        match closeMethod with
        | None => DeleteLocalRef env irManagerClass ;; ret tt
        | Some closeMethod =>
          CallVoidMethod env irm closeMethod ;;
          DeleteLocalRef env irManagerClass ;;
          LOGD "closeTCP() called" [] ;;
          ret tt
        end
      end
    end
  | _, _ => ret tt
  end.

Definition writeTCP (data : list byte) (length : Z) : M Z :=
  h <- this ;;
  match jniEnvHandler h, irManager h with
  | Some jeh, Some irm =>
    env <- getCurrentThreadEnv jeh ;;
    match env with
    | None => ret (-1)
    | Some env =>
      javaData <- NewByteArray env length ;;
      match javaData with
      | None => LOGE "Failed to allocate byte array" [] ;; ret (-1)
      | Some javaData =>
        SetByteArrayRegion env javaData 0 length data ;;
        irManagerClass <- GetObjectClass env irm ;;
        match irManagerClass with
        | None => DeleteLocalRef env javaData ;; ret (-1)
        | Some irManagerClass =>
          writeMethod <- GetMethodID env irManagerClass "writeTCP" "([BI)I" ;;
          match writeMethod with
          | None =>
            DeleteLocalRef env irManagerClass ;;
            DeleteLocalRef env javaData ;;
            ret (-1)
          | Some writeMethod =>
            result <- CallIntMethod env irm writeMethod javaData length ;;
            DeleteLocalRef env irManagerClass ;;
            DeleteLocalRef env javaData ;;
            ret result
          end
        end
      end
    end
  | _, _ => ret (-1)
  end.

Definition readTCP (buffer : list byte) (maxLength : Z)
  : M (Z * list byte) :=
  h <- this ;;
  match jniEnvHandler h, irManager h with
  | Some jeh, Some irm =>
    env <- getCurrentThreadEnv jeh ;;
    match env with
    | None => ret (0, buffer)
    | Some env =>
      javaBuffer <- NewByteArray env maxLength ;;
      match javaBuffer with
      | None => LOGE "Failed to allocate byte array" [] ;; ret (0, buffer)
      | Some javaBuffer =>
        irManagerClass <- GetObjectClass env irm ;;
        match irManagerClass with
        | None => DeleteLocalRef env javaBuffer ;; ret (0, buffer)
        | Some irManagerClass =>
          readMethod <- GetMethodID env irManagerClass "readTCP" "([BI)I" ;;
          match readMethod with
          | None =>
            DeleteLocalRef env irManagerClass ;;
            DeleteLocalRef env javaBuffer ;;
            ret (0, buffer)
          | Some readMethod =>
            bytesRead <- CallIntMethod env irm readMethod javaBuffer maxLength ;;
            buffer' <- (if 0 <? bytesRead
                        then GetByteArrayRegion env javaBuffer 0 bytesRead buffer
                        else ret buffer) ;;
            DeleteLocalRef env irManagerClass ;;
            DeleteLocalRef env javaBuffer ;;
            ret (bytesRead, buffer')
          end
        end
      end
    end
  | _, _ => ret (0, buffer)
  end.

Definition isTCPOpen : M bool :=
  h <- this ;;
  match jniEnvHandler h, irManager h with
  | Some jeh, Some irm =>
    env <- getCurrentThreadEnv jeh ;;
    match env with
    | None => ret false
    | Some env =>
      irManagerClass <- GetObjectClass env irm ;;
      match irManagerClass with
      | None => ret false
      | Some irManagerClass =>
        isOpenMethod <- GetMethodID env irManagerClass "isTCPOpen" "()Z" ;;
        match isOpenMethod with
        | None => DeleteLocalRef env irManagerClass ;; ret false
        | Some isOpenMethod =>
          result <- CallBooleanMethod env irm isOpenMethod ;;
          DeleteLocalRef env irManagerClass ;;
          ret (bool_of_jboolean result)
        end
      end
    end
  | _, _ => ret false
  end.

Definition hasDataAvailable : M bool :=
  h <- this ;;
  match jniEnvHandler h, irManager h with
  | Some jeh, Some irm =>
    env <- getCurrentThreadEnv jeh ;;
    match env with
    | None => ret false
    | Some env =>
      irManagerClass <- GetObjectClass env irm ;;
      match irManagerClass with
      | None => ret false
      | Some irManagerClass =>
        hasDataMethod <-
          GetMethodID env irManagerClass "hasDataAvailable" "()Z" ;;
        match hasDataMethod with
        | None => DeleteLocalRef env irManagerClass ;; ret false
        | Some hasDataMethod =>
          result <- CallBooleanMethod env irm hasDataMethod ;;
          DeleteLocalRef env irManagerClass ;;
          ret (bool_of_jboolean result)
        end
      end
    end
  | _, _ => ret false
  end.

(** ** The eleven operations of the interface, uniformly *)

Inductive Op :=
| OpenSerial | CloseSerial
| WriteSerial (data : list byte) (length : Z)
| ReadSerial (buffer : list byte) (maxLength : Z)
| IsSerialOpen
| OpenTCP | CloseTCP
| WriteTCP (data : list byte) (length : Z)
| ReadTCP (buffer : list byte) (maxLength : Z)
| IsTCPOpen
| HasDataAvailable.

(** What the caller gets back: the return value and, for a read, its
    buffer. *)
Inductive Ret :=
| RBool (b : bool)
| RVoid
| RInt (n : Z)
| RRead (n : Z) (buffer : list byte).

Definition call (op : Op) : M Ret :=
  match op with
  | OpenSerial => b <- openSerial ;; ret (RBool b)
  | CloseSerial => closeSerial ;; ret RVoid
  | WriteSerial data length => n <- writeSerial data length ;; ret (RInt n)
  | ReadSerial buffer maxLength =>
      r <- readSerial buffer maxLength ;; ret (RRead (fst r) (snd r))
  | IsSerialOpen => b <- isSerialOpen ;; ret (RBool b)
  | OpenTCP => b <- openTCP ;; ret (RBool b)
  | CloseTCP => closeTCP ;; ret RVoid
  | WriteTCP data length => n <- writeTCP data length ;; ret (RInt n)
  | ReadTCP buffer maxLength =>
      r <- readTCP buffer maxLength ;; ret (RRead (fst r) (snd r))
  | IsTCPOpen => b <- isTCPOpen ;; ret (RBool b)
  | HasDataAvailable => b <- hasDataAvailable ;; ret (RBool b)
  end.

(** ** Vocabulary of the statements *)

(** The sentinel each operation documents for a failed resolution; a read
    hands the caller's buffer back as it was. *)
Definition sentinel (op : Op) : Ret :=
  match op with
  | OpenSerial | IsSerialOpen | OpenTCP | IsTCPOpen | HasDataAvailable =>
      RBool false
  | CloseSerial | CloseTCP => RVoid
  | WriteSerial _ _ | WriteTCP _ _ => RInt (-1)
  | ReadSerial buffer _ | ReadTCP buffer _ => RRead 0 buffer
  end.

(** Name and signature of the host method an operation forwards to. *)
Definition target (op : Op) : string * string :=
  match op with
  | OpenSerial => ("openSerial", "()Z")
  | CloseSerial => ("closeSerial", "()V")
  | WriteSerial _ _ => ("writeSerial", "([BI)I")
  | ReadSerial _ _ => ("readSerial", "([BI)I")
  | IsSerialOpen => ("isSerialOpen", "()Z")
  | OpenTCP => ("openTCP", "()Z")
  | CloseTCP => ("closeTCP", "()V")
  | WriteTCP _ _ => ("writeTCP", "([BI)I")
  | ReadTCP _ _ => ("readTCP", "([BI)I")
  | IsTCPOpen => ("isTCPOpen", "()Z")
  | HasDataAvailable => ("hasDataAvailable", "()Z")
  end.

(** The length of the transfer array an operation asks for, if any. *)
Definition transfer_length (op : Op) : option Z :=
  match op with
  | WriteSerial _ length | WriteTCP _ length => Some length
  | ReadSerial _ maxLength | ReadTCP _ maxLength => Some maxLength
  | _ => None
  end.

Definition handles_null (s : State H) : Prop :=
  jniEnvHandler (self s) = None \/ irManager (self s) = None.

Definition handles_set (s : State H) : Prop :=
  is_Some (jniEnvHandler (self s)) /\ is_Some (irManager (self s)).

Definition alloc_fails (op : Op) (s : State H) : Prop :=
  exists n, transfer_length op = Some n /\ array_alloc s n = false.

Definition alloc_succeeds (op : Op) (s : State H) : Prop :=
  forall n, transfer_length op = Some n -> array_alloc s n = true.

Definition method_resolves (op : Op) (s : State H) : bool :=
  method_found s (fst (target op)) (snd (target op)).

(** The events one call appends to the trace. *)
Definition events (op : Op) (s : State H) : list Event :=
  drop (length (trace s)) (trace (snd (call op s))).

Definition is_log (e : Event) : bool :=
  match e with EvLog _ _ _ => true | _ => false end.

Definition is_host_call (e : Event) : bool :=
  match e with
  | EvCallBooleanMethod _ _ | EvCallIntMethod _ _ _ _ | EvCallVoidMethod _ _ =>
      true
  | _ => false
  end.

Definition host_invoked (tr : list Event) : bool := existsb is_host_call tr.

(** Local references: which events create one, which release one. *)
Definition allocates (r : jref) (e : Event) : bool :=
  match e with
  | EvNewByteArray _ (Some r') | EvGetObjectClass _ (Some r') => Nat.eqb r r'
  | _ => false
  end.

Definition releases (r : jref) (e : Event) : bool :=
  match e with
  | EvDeleteLocalRef r' => Nat.eqb r r'
  | _ => false
  end.

Fixpoint count (f : Event -> bool) (tr : list Event) : nat :=
  match tr with
  | [] => O
  | e :: tr => ((if f e then 1 else 0) + count f tr)%nat
  end.

(** The life of one reference along a trace, from [live]: it may be
    created only while not live and released only while live. *)
Fixpoint lifecycle (r : jref) (live : bool) (tr : list Event) : option bool :=
  match tr with
  | [] => Some live
  | e :: tr =>
      if allocates r e then (if live then None else lifecycle r true tr)
      else if releases r e then (if live then lifecycle r false tr else None)
      else lifecycle r live tr
  end.

(** Byte-buffer traffic across the boundary. *)
Definition is_copy_in (e : Event) : bool :=
  match e with EvSetByteArrayRegion _ _ _ => true | _ => false end.

Definition is_copy_out (e : Event) : bool :=
  match e with EvGetByteArrayRegion _ _ _ => true | _ => false end.

Definition touches_byte_array (e : Event) : bool :=
  match e with
  | EvNewByteArray _ _ | EvSetByteArrayRegion _ _ _
  | EvGetByteArrayRegion _ _ _ | EvCallIntMethod _ _ _ _ => true
  | _ => false
  end.

Definition marshals_buffer (tr : list Event) : bool :=
  existsb (fun e => is_copy_in e || is_copy_out e) tr.

(** The parts of a call and of its result that concern a read. *)
Definition caller_buffer (op : Op) : list byte :=
  match op with
  | ReadSerial buffer _ | ReadTCP buffer _ => buffer
  | _ => []
  end.

Definition buffer_after (r : Ret) : list byte :=
  match r with RRead _ buffer => buffer | _ => [] end.

Definition count_of (r : Ret) : Z :=
  match r with RRead n _ | RInt n => n | _ => 0 end.

(** The transfer array of a read once the host method has stored into
    it. *)
Definition host_array (op : Op) (h : H) : list byte :=
  match op with
  | ReadSerial _ maxLength =>
      let a := replicate (Z.to_nat maxLength) Byte.x00 in
      overwrite a (fst (fst (java_readSerial host a maxLength h)))
  | ReadTCP _ maxLength =>
      let a := replicate (Z.to_nat maxLength) Byte.x00 in
      overwrite a (fst (fst (java_readTCP host a maxLength h)))
  | _ => []
  end.

(** Success and failure of the resolution steps of a call. *)
Definition resolution_fails (op : Op) (s : State H) : Prop :=
  handles_null s \/ thread_env s = false \/ alloc_fails op s \/
  class_found s = false \/ method_resolves op s = false.

Definition is_write (op : Op) : bool :=
  match op with WriteSerial _ _ | WriteTCP _ _ => true | _ => false end.

Definition is_read (op : Op) : bool :=
  match op with ReadSerial _ _ | ReadTCP _ _ => true | _ => false end.

Definition is_close (op : Op) : bool :=
  match op with CloseSerial | CloseTCP => true | _ => false end.

Definition is_flag (op : Op) : bool :=
  match op with
  | OpenSerial | IsSerialOpen | OpenTCP | IsTCPOpen | HasDataAvailable => true
  | _ => false
  end.

Definition resolution_succeeds (op : Op) (s : State H) : Prop :=
  handles_set s /\ thread_env s = true /\ alloc_succeeds op s /\
  class_found s = true /\ method_resolves op s = true.

Definition transfer_in (data : list byte) (length : Z) : list byte :=
  let a := replicate (Z.to_nat length) Byte.x00 in
  if region_valid a 0 length then set_region a 0 length data else a.

Inductive Value := VBool (b : bool) | VInt (n : Z) | VVoid.

Definition returned (r : Ret) : Value :=
  match r with
  | RBool b => VBool b
  | RVoid => VVoid
  | RInt n | RRead n _ => VInt n
  end.

Definition host_returns (op : Op) (h : H) : Value :=
  match op with
  | OpenSerial => VBool (fst (java_openSerial host h))
  | CloseSerial | CloseTCP => VVoid
  | WriteSerial data length =>
      VInt (fst (java_writeSerial host (transfer_in data length) length h))
  | ReadSerial _ maxLength =>
      VInt (snd (fst (java_readSerial host
                        (replicate (Z.to_nat maxLength) Byte.x00) maxLength h)))
  | IsSerialOpen => VBool (fst (java_isSerialOpen host h))
  | OpenTCP => VBool (fst (java_openTCP host h))
  | WriteTCP data length =>
      VInt (fst (java_writeTCP host (transfer_in data length) length h))
  | ReadTCP _ maxLength =>
      VInt (snd (fst (java_readTCP host
                        (replicate (Z.to_nat maxLength) Byte.x00) maxLength h)))
  | IsTCPOpen => VBool (fst (java_isTCPOpen host h))
  | HasDataAvailable => VBool (fst (java_hasDataAvailable host h))
  end.

(** The data a write was given, and the host methods behind the four data
    operations. *)
Definition caller_data (op : Op) : list byte :=
  match op with
  | WriteSerial data _ | WriteTCP data _ => data
  | _ => []
  end.

Definition host_write (op : Op) : list byte -> Z -> H -> Z * H :=
  match op with
  | WriteSerial _ _ => java_writeSerial host
  | WriteTCP _ _ => java_writeTCP host
  | _ => fun _ _ h => (0, h)
  end.

Definition host_read (op : Op) : list byte -> Z -> H -> (list byte * Z) * H :=
  match op with
  | ReadSerial _ _ => java_readSerial host
  | ReadTCP _ _ => java_readTCP host
  | _ => fun _ _ h => (([], 0), h)
  end.

Definition target_method (op : Op) : jmethodID :=
  MethodID (fst (target op)) (snd (target op)).

(** What a write that reaches the host object asks of the runtime, in
    order: [arr] is the transfer array, [cls] the class reference. *)
Definition write_events (op : Op) (length : Z) (irm : jobject)
    (arr cls : jref) : list Event :=
  [ EvGetCurrentThreadEnv true;
    EvNewByteArray length (Some arr);
    EvSetByteArrayRegion arr 0 length;
    EvGetObjectClass irm (Some cls);
    EvGetMethodID cls (fst (target op)) (snd (target op)) true;
    EvCallIntMethod irm (target_method op) arr length;
    EvDeleteLocalRef cls;
    EvDeleteLocalRef arr ].

(** The same for a read whose host method answered [n]. *)
Definition read_events (op : Op) (maxLength n : Z) (irm : jobject)
    (arr cls : jref) : list Event :=
  [ EvGetCurrentThreadEnv true;
    EvNewByteArray maxLength (Some arr);
    EvGetObjectClass irm (Some cls);
    EvGetMethodID cls (fst (target op)) (snd (target op)) true;
    EvCallIntMethod irm (target_method op) arr maxLength ]
  ++ (if 0 <? n then [EvGetByteArrayRegion arr 0 n] else [])
  ++ [ EvDeleteLocalRef cls; EvDeleteLocalRef arr ].

(** The states a handler built from [je] and [ir] lives through: the one
    its constructor leaves, those its own methods lead to, and whatever
    the rest of the program makes of the runtime in between, which cannot
    reach the two private fields. *)
Inductive lifetime (je : option JniEnvHandlerPtr) (ir : option jobject)
  : State H -> Prop :=
| life_constructed (s0 : State H) :
    lifetime je ir (snd (construct je ir s0))
| life_call (s : State H) (op : Op) :
    lifetime je ir s -> lifetime je ir (snd (call op s))
| life_elsewhere (s s' : State H) :
    lifetime je ir s -> self s' = self s -> lifetime je ir s'.

(** The state of the host object after the method an operation forwards
    to. *)
Definition host_next (op : Op) (h : H) : H :=
  match op with
  | OpenSerial => snd (java_openSerial host h)
  | CloseSerial => java_closeSerial host h
  | WriteSerial data length =>
      snd (java_writeSerial host (transfer_in data length) length h)
  | ReadSerial _ maxLength =>
      snd (java_readSerial host
             (replicate (Z.to_nat maxLength) Byte.x00) maxLength h)
  | IsSerialOpen => snd (java_isSerialOpen host h)
  | OpenTCP => snd (java_openTCP host h)
  | CloseTCP => java_closeTCP host h
  | WriteTCP data length =>
      snd (java_writeTCP host (transfer_in data length) length h)
  | ReadTCP _ maxLength =>
      snd (java_readTCP host
             (replicate (Z.to_nat maxLength) Byte.x00) maxLength h)
  | IsTCPOpen => snd (java_isTCPOpen host h)
  | HasDataAvailable => snd (java_hasDataAvailable host h)
  end.

Definition is_open (op : Op) : bool :=
  match op with OpenSerial | OpenTCP => true | _ => false end.

Definition is_query (op : Op) : bool :=
  match op with
  | IsSerialOpen | IsTCPOpen | HasDataAvailable => true
  | _ => false
  end.

Definition names_target (op : Op) (m : jmethodID) : bool :=
  String.eqb (method_name m) (fst (target op)) &&
  String.eqb (method_sig m) (snd (target op)).

Definition same_object (obj : jobject) (field : option jobject) : bool :=
  match field with
  | Some o => Nat.eqb obj o
  | None => false
  end.

(** [e] invokes, on the object held in [field], the method [op] is meant
    to forward to, through the call function of its return type and, for
    a data operation, with the length the caller gave. *)
Definition is_target_call (op : Op) (field : option jobject) (e : Event)
  : bool :=
  match e with
  | EvCallBooleanMethod obj m =>
      is_flag op && same_object obj field && names_target op m
  | EvCallVoidMethod obj m =>
      is_close op && same_object obj field && names_target op m
  | EvCallIntMethod obj m _ n =>
      (is_write op || is_read op) && same_object obj field &&
      names_target op m &&
      match transfer_length op with Some k => n =? k | None => false end
  | _ => false
  end.

Definition is_error_log (e : Event) : bool :=
  match e with EvLog ANDROID_LOG_ERROR _ _ => true | _ => false end.

(** A call of a function of [JNIEnv] (obtaining the environment and
    logging are not). *)
Definition is_env_call (e : Event) : bool :=
  match e with
  | EvLog _ _ _ | EvGetCurrentThreadEnv _ => false
  | _ => true
  end.

(** The step of the forwarding pattern an event belongs to; log lines
    belong to none. *)
Definition phase (e : Event) : option nat :=
  match e with
  | EvLog _ _ _ => None
  | EvGetCurrentThreadEnv _ => Some 0%nat
  | EvNewByteArray _ _ => Some 1%nat
  | EvSetByteArrayRegion _ _ _ => Some 2%nat
  | EvGetObjectClass _ _ => Some 3%nat
  | EvGetMethodID _ _ _ _ => Some 4%nat
  | EvCallBooleanMethod _ _ | EvCallIntMethod _ _ _ _
  | EvCallVoidMethod _ _ => Some 5%nat
  | EvGetByteArrayRegion _ _ _ => Some 6%nat
  | EvDeleteLocalRef _ => Some 7%nat
  end.

Fixpoint ascending (l : list nat) : bool :=
  match l with
  | a :: (b :: _) as t => Nat.leb a b && ascending t
  | _ => true
  end.

(** [e] hands the local reference [r] to the runtime. *)
Definition mentions (r : jref) (e : Event) : bool :=
  match e with
  | EvSetByteArrayRegion arr _ _ | EvGetByteArrayRegion arr _ _
  | EvCallIntMethod _ _ arr _ => Nat.eqb r arr
  | EvGetMethodID cls _ _ _ => Nat.eqb r cls
  | _ => false
  end.

(** Along a trace, from [live]: [r] is handed to the runtime only between
    its allocation and its release. *)
Fixpoint scoped (r : jref) (live : bool) (tr : list Event) : bool :=
  match tr with
  | [] => true
  | e :: tr =>
      if allocates r e then scoped r true tr
      else if releases r e then scoped r false tr
      else implb (mentions r e) live && scoped r live tr
  end.

(** Operations one after the other, as a caller issues them. *)
Fixpoint call_all (ops : list Op) : M (list Ret) :=
  match ops with
  | [] => ret []
  | op :: ops => r <- call op ;; rs <- call_all ops ;; ret (r :: rs)
  end.

(** ** Running a call *)

Ltac unfold_ops :=
  unfold events, call, openSerial, closeSerial, writeSerial, readSerial,
    isSerialOpen, openTCP, closeTCP, writeTCP, readTCP, isTCPOpen,
    hasDataAvailable, bind, ret, this, getCurrentThreadEnv, NewByteArray,
    SetByteArrayRegion, GetByteArrayRegion, GetObjectClass, GetMethodID,
    DeleteLocalRef, CallBooleanMethod, CallVoidMethod, CallIntMethod,
    LOGE, LOGD in *.

(** Symbolic execution of a call: name a freshly allocated reference,
    resolve a lookup in the table of local references, or split on the
    next answer of the runtime. *)
Ltac name_fresh :=
  match goal with
  | |- context [fresh (dom ?m)] =>
      let r := fresh "r" in
      let Hr := fresh "Hr" in
      pose proof (is_fresh (dom m)) as Hr;
      set (r := fresh (dom m)) in *; clearbody r;
      rewrite ?dom_insert_L, ?not_elem_of_union, ?not_elem_of_singleton in Hr;
      destruct_and?
  end.

Ltac solve_ne := first [assumption | apply not_eq_sym; assumption].

Ltac step :=
  first
  [ name_fresh
  | rewrite lookup_insert_eq
  | rewrite lookup_insert_ne by solve_ne
  | match goal with
    | |- context [match ?x with _ => _ end] =>
        lazymatch x with
        | context [match _ with _ => _ end] => fail
        | _ => tryif is_var x then destruct x
               else (destruct x eqn:?; try (exfalso; congruence))
        end
    end ]; cbn.

Ltac trace_norm :=
  cbn; rewrite <- ?app_assoc; rewrite ?drop_app_length, ?drop_all; cbn.

Lemma region_valid_prefix (elems : list byte) (n : Z) :
  0 <= n <= Z.of_nat (length elems) -> region_valid elems 0 n = true.
Proof.
  intros Hn. unfold region_valid.
  repeat (apply andb_true_intro; split); apply Z.leb_le; lia.
Qed.

Lemma overwrite_length (elems new : list byte) :
  length (overwrite elems new) = length elems.
Proof.
  unfold overwrite. rewrite length_take, length_app, length_drop. lia.
Qed.

(** What a write hands to the host: the first [length] bytes of the
    caller's data. *)
Lemma transfer_in_prefix (data : list byte) (length : Z) :
  (0 <= length <= Z.of_nat (List.length data)) ->
  transfer_in data length = take (Z.to_nat length) data.
Proof.
  intros Hl. unfold transfer_in.
  rewrite region_valid_prefix by (rewrite length_replicate; lia).
  unfold set_region. cbn.
  rewrite drop_ge by (rewrite length_replicate; lia).
  rewrite app_nil_r. apply resize_le. lia.
Qed.

Lemma bool_of_jboolean_of_bool b : bool_of_jboolean (jboolean_of_bool b) = b.
Proof. by destruct b. Qed.

(** Any failed resolution step ends the call with the sentinel, before the
    host object is reached. *)
Lemma failure_sentinel (op : Op) (s : State H) :
  resolution_fails op s ->
  fst (call op s) = sentinel op /\
  peer (snd (call op s)) = peer s /\
  host_invoked (events op s) = false.
Proof.
  intros Hf. destruct s as [te aa cf mf [je ir] p l tr].
  unfold resolution_fails, handles_null, alloc_fails, method_resolves in Hf.
  cbn in Hf.
  destruct op; unfold_ops; cbn in *.
  all: repeat step; trace_norm; try (split_and!; reflexivity).
  all: exfalso; destruct Hf as [[?|?]|[?|[(n & Hn & Hf)|[?|?]]]];
    congruence.
Qed.

Lemma success_run (op : Op) (s : State H) :
  resolution_succeeds op s ->
  returned (fst (call op s)) = host_returns op (peer s) /\
  peer (snd (call op s)) = host_next op (peer s) /\
  count is_host_call (events op s) = 1%nat.
Proof.
  intros ([[je Hje] [ir Hir]] & Hte & Ha & Hcf & Hmf).
  destruct s as [te aa cf mf [je' ir'] p l tr].
  unfold alloc_succeeds, method_resolves in *. cbn in *. subst.
  destruct op; try pose proof (Ha _ eq_refl); unfold_ops; cbn in *;
    unfold transfer_in.
  all: repeat step; trace_norm; rewrite ?bool_of_jboolean_of_bool.
  all: split_and!; reflexivity.
Qed.

Lemma returned_int (r : Ret) (v : Z) : returned r = VInt v -> count_of r = v.
Proof. destruct r; cbn; congruence. Qed.

Lemma transfer_in_take (data : list byte) (length : Z) :
  length <= Z.of_nat (List.length data) ->
  transfer_in data length = take (Z.to_nat length) data.
Proof.
  intros Hl. destruct (Z.le_gt_cases 0 length) as [Hpos | Hneg].
  - apply transfer_in_prefix. lia.
  - unfold transfer_in, region_valid.
    replace (0 <=? length) with false by (symmetry; apply Z.leb_gt; lia).
    replace (Z.to_nat length) with O by lia. reflexivity.
Qed.

(** ** Failure sentinels *)

Lemma null_handles_fail (op : Op) (s : State H) :
  handles_null s ->
  fst (call op s) = sentinel op /\
  host_invoked (events op s) = false /\
  peer (snd (call op s)) = peer s.
Proof.
  intros Hn.
  destruct (failure_sentinel op s (or_introl Hn)) as (? & ? & ?).
  by split_and!.
Qed.

(** [C2] With a null [jniEnvHandler] or a null [irManager], every operation
    returns its failure sentinel at once: [false] for the five boolean
    operations, [-1] for the writes, [0] (and an untouched buffer) for the
    reads, plain return for the closes.  No runtime call is made (at most
    a log line is written), so the host object is never invoked and its
    state is as before. *)
Theorem null_handles_return_sentinel (op : Op) (s : State H) :
  handles_null s ->
  fst (call op s) = sentinel op /\
  forallb is_log (events op s) = true /\
  host_invoked (events op s) = false /\
  peer (snd (call op s)) = peer s.
Proof.
  intros Hn. destruct s as [te aa cf mf [je ir] p l tr].
  unfold handles_null in Hn; cbn in Hn.
  destruct op; unfold_ops; cbn.
  all: destruct Hn as [-> | ->]; try destruct je; trace_norm.
  all: split_and!; reflexivity.
Qed.

(** [C3] [writeSerial] and [writeTCP] return [-1] whenever a resolution
    step fails (null handles, no JNI environment, no transfer array, no
    class, no method), and the host write method is not invoked. *)
Theorem write_failure_returns_minus_one (op : Op) (s : State H) :
  is_write op = true ->
  resolution_fails op s ->
  fst (call op s) = RInt (-1) /\
  host_invoked (events op s) = false /\
  peer (snd (call op s)) = peer s.
Proof.
  intros Hw Hf. destruct (failure_sentinel op s Hf) as (Hr & Hp & Hi).
  rewrite Hr. destruct op; try discriminate Hw; auto.
Qed.

(** [C4] [readSerial] and [readTCP] return [0] whenever a resolution step
    fails, and the host read method is not invoked. *)
Theorem read_failure_returns_zero (op : Op) (s : State H) :
  is_read op = true ->
  resolution_fails op s ->
  returned (fst (call op s)) = VInt 0 /\
  host_invoked (events op s) = false /\
  peer (snd (call op s)) = peer s.
Proof.
  intros Hw Hf. destruct (failure_sentinel op s Hf) as (Hr & Hp & Hi).
  rewrite Hr. destruct op; try discriminate Hw; auto.
Qed.

(** [C5] [openSerial], [openTCP], [isSerialOpen], [isTCPOpen] and
    [hasDataAvailable] return [false] whenever a resolution step fails
    (null handles, no JNI environment, no class, no method). *)
Theorem flag_failure_returns_false (op : Op) (s : State H) :
  is_flag op = true ->
  handles_null s \/ thread_env s = false \/ class_found s = false \/
    method_resolves op s = false ->
  fst (call op s) = RBool false.
Proof.
  intros Hw Hf.
  assert (Hf' : resolution_fails op s).
  { unfold resolution_fails. tauto. }
  destruct (failure_sentinel op s Hf') as (Hr & _).
  rewrite Hr. destruct op; try discriminate Hw; auto.
Qed.

(** [C9] [closeSerial] and [closeTCP] fail silently.  With null handles or
    a failed resolution step (environment, class, method) they return
    without invoking the host close method and without writing a log line;
    the [void] result is the same on every path, so it carries no
    sentinel. *)
Theorem close_fails_silently (op : Op) (s : State H) :
  is_close op = true ->
  handles_null s \/ thread_env s = false \/ class_found s = false \/
    method_resolves op s = false ->
  fst (call op s) = RVoid /\
  host_invoked (events op s) = false /\
  peer (snd (call op s)) = peer s /\
  existsb is_log (events op s) = false /\
  (forall s' : State H, fst (call op s') = fst (call op s)).
Proof.
  intros Hc Hf. destruct s as [te aa cf mf [je ir] p l tr].
  unfold handles_null, method_resolves in Hf. cbn in Hf.
  assert (Hv : forall s' : State H, fst (call op s') = RVoid).
  { intros [te' aa' cf' mf' [je' ir'] p' l' tr'].
    destruct op; try discriminate Hc; unfold_ops; cbn.
    all: repeat step; reflexivity. }
  split; [apply Hv|].
  cut (host_invoked (events op (MkState te aa cf mf (Handler je ir) p l tr))
         = false /\
       peer (snd (call op (MkState te aa cf mf (Handler je ir) p l tr))) = p /\
       existsb is_log (events op (MkState te aa cf mf (Handler je ir) p l tr))
         = false).
  { intros (? & ? & ?). split_and!; try assumption.
    intros s'. by rewrite !Hv. }
  destruct op; try discriminate Hc; unfold_ops; cbn in *.
  all: repeat step; trace_norm; try (split_and!; reflexivity).
  all: exfalso; destruct Hf as [[?|?]|[?|[?|?]]]; congruence.
Qed.

(** ** Forwarding *)

(** [C1] When every resolution step succeeds (non-null handles, the JNI
    environment is obtained, the transfer array of a read or write is
    allocated, class and method are resolved), the operation returns what
    the host object's method returns: the host's boolean for the five
    boolean operations, the host's [int] for the writes, the host's
    [bytesRead] for the reads. *)
Theorem forwards_host_result (op : Op) (s : State H) :
  resolution_succeeds op s ->
  returned (fst (call op s)) = host_returns op (peer s) /\
  host_invoked (events op s) = true.
Proof.
  intros ([[je Hje] [ir Hir]] & Hte & Ha & Hcf & Hmf).
  destruct s as [te aa cf mf [je' ir'] p l tr].
  unfold alloc_succeeds, method_resolves in *. cbn in *. subst.
  destruct op; try pose proof (Ha _ eq_refl); unfold_ops; cbn in *;
    unfold transfer_in.
  all: repeat step; trace_norm; rewrite ?bool_of_jboolean_of_bool.
  all: split; reflexivity.
Qed.

(** ** Transient references *)

Ltac restore_locals :=
  apply map_eq; intros ?; rewrite ?lookup_delete, ?lookup_insert;
  repeat case_decide; subst; try reflexivity; try congruence;
  symmetry; apply not_elem_of_dom; assumption.

Ltac count_refs :=
  repeat match goal with
  | |- context [Nat.eqb ?a ?b] => destruct (Nat.eqb_spec a b); subst; cbn
  end;
  first [ reflexivity | lia | congruence ].

(** [C6] On every exit path of every operation, each local reference the
    call obtained (the class from [GetObjectClass], the byte array from
    [NewByteArray]) is released by [DeleteLocalRef] exactly once before the
    call returns: per reference, the call's events hold as many releases as
    allocations and at most one allocation, a release never precedes its
    allocation, and the table of live local references is the one the
    call started with. *)
Theorem local_refs_released_once (op : Op) (s : State H) :
  (forall r : jref,
     count (releases r) (events op s) = count (allocates r) (events op s) /\
     (count (allocates r) (events op s) <= 1)%nat /\
     lifecycle r false (events op s) = Some false) /\
  locals (snd (call op s)) = locals s.
Proof.
  destruct s as [te aa cf mf [je ir] p l tr].
  destruct op; unfold_ops; cbn.
  all: repeat step; trace_norm.
  all: split; [intros r'; split_and!; count_refs | try reflexivity].
  all: restore_locals.
Qed.

(** ** Byte buffers *)

Ltac reflect_order :=
  repeat match goal with
  | Hc : (_ <? _) = true |- _ => apply Z.ltb_lt in Hc
  | Hc : (_ <? _) = false |- _ => apply Z.ltb_ge in Hc
  end.

Lemma host_array_length (op : Op) (h : H) (n : Z) :
  is_read op = true -> transfer_length op = Some n ->
  length (host_array op h) = Z.to_nat n.
Proof.
  destruct op; try discriminate; intros _ [= <-]; cbn;
    by rewrite overwrite_length, length_replicate.
Qed.

(** An operation reaches the host object only when every resolution step
    succeeded. *)
Lemma invoked_resolves (op : Op) (s : State H) :
  host_invoked (events op s) = true -> resolution_succeeds op s.
Proof.
  destruct s as [te aa cf mf [je ir] p l tr].
  unfold resolution_succeeds, handles_set, alloc_succeeds, method_resolves.
  destruct op; unfold_ops; cbn.
  all: repeat step; trace_norm; try discriminate.
  all: intros _; split_and!; try reflexivity; try assumption;
    try (eexists; reflexivity).
  all: first [ intros ? [= <-]; assumption | intros ? Hn; discriminate Hn ].
Qed.

(** The runtime calls of an operation that reaches the host object. *)
Lemma data_events (op : Op) (s : State H) :
  host_invoked (events op s) = true ->
  (is_write op = true ->
   forall length, transfer_length op = Some length ->
   exists irm arr cls,
     irManager (self s) = Some irm /\
     events op s = write_events op length irm arr cls) /\
  (is_read op = true ->
   forall maxLength, transfer_length op = Some maxLength ->
   exists irm arr cls,
     irManager (self s) = Some irm /\
     events op s
       = read_events op maxLength (count_of (fst (call op s))) irm arr cls) /\
  (is_write op || is_read op = false ->
   existsb touches_byte_array (events op s) = false).
Proof.
  destruct s as [te aa cf mf [je ir] p l tr].
  destruct op; unfold_ops; cbn.
  all: repeat step; trace_norm; try discriminate.
  all: intros _; split_and!; try (intros Hd; discriminate Hd).
  all: try (intros _; reflexivity).
  all: intros _ ? [= <-]; unfold read_events; cbn;
    try match goal with Hc : (0 <? _) = _ |- _ => rewrite Hc end;
    eexists _, _, _; split; reflexivity.
Qed.

Lemma read_copy_in_range (op : Op) (maxLength : Z) (s : State H) :
  is_read op = true ->
  resolution_succeeds op s ->
  transfer_length op = Some maxLength ->
  0 < count_of (fst (call op s)) <= maxLength ->
  buffer_after (fst (call op s))
    = take (Z.to_nat (count_of (fst (call op s)))) (host_array op (peer s))
      ++ drop (Z.to_nat (count_of (fst (call op s)))) (caller_buffer op).
Proof.
  intros Hr ([[je Hje] [ir Hir]] & Hte & Ha & Hcf & Hmf) Hlen.
  pose proof (host_array_length op (peer s) maxLength Hr Hlen) as Hal.
  revert Hal.
  destruct s as [te aa cf mf [je' ir'] p l tr].
  unfold alloc_succeeds, method_resolves in *. cbn in *. subst.
  destruct op; try discriminate Hr; injection Hlen as <-;
    pose proof (Ha _ eq_refl); unfold_ops; cbn.
  all: repeat step; reflect_order; try lia.
  all: intros Hal Hb; cbn; try reflexivity.
  all: rewrite region_valid_prefix in * by (rewrite Hal; lia).
  all: discriminate.
Qed.

(** [C7], as amended.  Only the four data operations marshal a byte
    buffer.  A write that reaches the host object has copied the caller's
    data into the transfer array, once and before the host call: the
    runtime calls are those of [write_events], in that order, and when
    [length] does not exceed the caller's data the host method receives
    its first [length] bytes.  A read that reaches the host object copies
    nothing in, hands the host method a zeroed array of [maxLength]
    elements, and asks for one copy-out, after the host call and before
    the array is released, exactly when the host's count is positive (the
    calls are those of [read_events]); that copy-out puts the first
    [count] elements of the array into the caller's buffer when the count
    does not exceed [maxLength].  The other seven operations invoke the
    host method without any byte array. *)
Theorem buffer_marshalled_only_by_data_ops (op : Op) (s : State H) :
  host_invoked (events op s) = true ->
  (is_write op = true ->
   forall length, transfer_length op = Some length ->
   (exists irm arr cls,
      irManager (self s) = Some irm /\
      events op s = write_events op length irm arr cls) /\
   (length <= Z.of_nat (List.length (caller_data op)) ->
    peer (snd (call op s))
      = snd (host_write op (take (Z.to_nat length) (caller_data op)) length
               (peer s)))) /\
  (is_read op = true ->
   forall maxLength, transfer_length op = Some maxLength ->
   (exists irm arr cls,
      irManager (self s) = Some irm /\
      events op s
        = read_events op maxLength (count_of (fst (call op s)))
            irm arr cls) /\
   peer (snd (call op s))
     = snd (host_read op (replicate (Z.to_nat maxLength) Byte.x00)
              maxLength (peer s)) /\
   (0 < count_of (fst (call op s)) <= maxLength ->
    buffer_after (fst (call op s))
      = take (Z.to_nat (count_of (fst (call op s))))
          (host_array op (peer s))
        ++ drop (Z.to_nat (count_of (fst (call op s))))
             (caller_buffer op))) /\
  (is_write op || is_read op = false ->
   existsb touches_byte_array (events op s) = false).
Proof.
  intros Hi.
  destruct (data_events op s Hi) as (Hw & Hr & Ho).
  pose proof (invoked_resolves op s Hi) as Hres.
  destruct (success_run op s Hres) as (_ & Hp & _).
  split_and!; [| | exact Ho].
  - intros Hwr length Hlen. split; [exact (Hw Hwr length Hlen) |].
    intros Hle. rewrite Hp.
    destruct op; try discriminate Hwr; injection Hlen as <-; cbn in *;
      by rewrite transfer_in_take.
  - intros Hrd maxLength Hlen. split; [exact (Hr Hrd maxLength Hlen) |].
    split.
    + rewrite Hp.
      destruct op; try discriminate Hrd; injection Hlen as <-; reflexivity.
    + intros Hn. by apply (read_copy_in_range op maxLength).
Qed.

(** [C8], as amended.  A read leaves the caller's buffer as it was when a
    resolution step fails or the host's count is zero or negative.  When
    the count [n] is positive and does not exceed [maxLength] (the length
    of the transfer array), the first [n] elements of the transfer array
    are copied to the buffer from offset 0 and the rest of the buffer is
    kept. *)
Theorem read_copies_out_within_bounds (op : Op) (s : State H) :
  is_read op = true ->
  (resolution_fails op s \/ count_of (fst (call op s)) <= 0 ->
   buffer_after (fst (call op s)) = caller_buffer op) /\
  (resolution_succeeds op s ->
   forall maxLength, transfer_length op = Some maxLength ->
   0 < count_of (fst (call op s)) <= maxLength ->
   let n := Z.to_nat (count_of (fst (call op s))) in
   buffer_after (fst (call op s))
     = take n (host_array op (peer s)) ++ drop n (caller_buffer op) /\
   length (take n (host_array op (peer s))) = n).
Proof.
  intros Hr. split.
  - intros [Hf | Hn].
    + destruct (failure_sentinel op s Hf) as (-> & _).
      by destruct op.
    + revert Hn. destruct s as [te aa cf mf [je ir] p l tr].
      destruct op; try discriminate Hr; unfold_ops; cbn.
      all: repeat step; try reflexivity; reflect_order; intros ?; lia.
  - intros ([[je Hje] [ir Hir]] & Hte & Ha & Hcf & Hmf) maxLength Hlen.
    pose proof (host_array_length op (peer s) maxLength Hr Hlen) as Hal.
    revert Hal.
    destruct s as [te aa cf mf [je' ir'] p l tr].
    unfold alloc_succeeds, method_resolves in *. cbn in *. subst.
    destruct op; try discriminate Hr; injection Hlen as <-;
      pose proof (Ha _ eq_refl); unfold_ops; cbn.
    all: repeat step; reflect_order; try lia.
    all: intros Hal Hb; cbn.
    all: try (rewrite length_take, Hal; split; [reflexivity | lia]).
    all: rewrite region_valid_prefix in * by (rewrite Hal; lia).
    all: discriminate.
Qed.

(** ** The handler's fields *)

Lemma construct_stores (je : option JniEnvHandlerPtr) (ir : option jobject)
    (s : State H) :
  self (snd (construct je ir s)) = Handler je ir.
Proof. by destruct je, ir. Qed.

Lemma call_preserves_self (op : Op) (s : State H) :
  self (snd (call op s)) = self s.
Proof.
  destruct s as [te aa cf mf [je ir] p l tr].
  destruct op; unfold_ops; cbn.
  all: repeat step; reflexivity.
Qed.

(** [C10] Construction always goes through and stores both arguments as
    they are, null or not; no operation changes the two fields; hence a
    handler constructed with a null handle answers every operation, at any
    point of its life, with the failure sentinel and never reaches the
    host object. *)
Theorem handles_fixed_for_life (je : option JniEnvHandlerPtr)
    (ir : option jobject) (s : State H) :
  lifetime je ir s ->
  self s = Handler je ir /\
  (forall op : Op, self (snd (call op s)) = self s) /\
  (je = None \/ ir = None ->
   forall op : Op,
     fst (call op s) = sentinel op /\
     host_invoked (events op s) = false /\
     peer (snd (call op s)) = peer s).
Proof.
  intros Hl.
  assert (Hs : self s = Handler je ir).
  { induction Hl as [s0 | s op _ IH | s s' _ IH Heq].
    - apply construct_stores.
    - by rewrite call_preserves_self.
    - by rewrite Heq. }
  split_and!; [exact Hs | intros op; apply call_preserves_self |].
  intros Hnull op.
  assert (Hn : handles_null s).
  { unfold handles_null. rewrite Hs. exact Hnull. }
  destruct (null_handles_fail op s Hn) as (? & ? & ?). by split_and!.
Qed.

(** ** Further properties of the forwarding *)

Lemma region_valid_bounds (elems : list byte) (n : Z) :
  region_valid elems 0 n = true -> 0 <= n <= Z.of_nat (List.length elems).
Proof.
  unfold region_valid. rewrite !andb_true_iff, !Z.leb_le. lia.
Qed.

Lemma get_region_frame (elems buf : list byte) (n : Z) (m : nat) :
  region_valid elems 0 n = true -> List.length elems = m ->
  drop m (get_region elems 0 n buf) = drop m buf /\
  ((m <= List.length buf)%nat ->
   List.length (get_region elems 0 n buf) = List.length buf).
Proof.
  intros Hv Hm. apply region_valid_bounds in Hv.
  unfold get_region. change (drop (Z.to_nat 0) elems) with elems.
  assert (Hk : List.length (take (Z.to_nat n) elems) = Z.to_nat n)
    by (rewrite length_take; lia).
  split.
  - rewrite drop_app_ge by lia. rewrite drop_drop. f_equal. lia.
  - intros Hb. rewrite length_app, length_drop. lia.
Qed.

(** [X1] When every resolution step succeeds, the operation invokes the
    host object exactly once and leaves it in the state the forwarded
    method leaves it in. *)
Theorem invokes_host_once (op : Op) (s : State H) :
  resolution_succeeds op s ->
  count is_host_call (events op s) = 1%nat /\
  peer (snd (call op s)) = host_next op (peer s).
Proof.
  intros Hr. destruct (success_run op s Hr) as (_ & Hp & Hc). by split.
Qed.

(** [X2] On every path an operation makes at most one call into the host
    object, and that call is always the method named after the operation,
    with its signature, on the object held in [irManager], through the
    call function of its return type: a serial operation never reaches a
    TCP method, nor the other way round. *)
Theorem only_target_method_invoked (op : Op) (s : State H) :
  forallb (fun e => implb (is_host_call e)
                          (is_target_call op (irManager (self s)) e))
          (events op s) = true /\
  (count is_host_call (events op s) <= 1)%nat.
Proof.
  destruct s as [te aa cf mf [je ir] p l tr].
  destruct op; unfold_ops; cbn.
  all: repeat step; trace_norm; rewrite ?Nat.eqb_refl, ?Z.eqb_refl; cbn.
  all: split; first [reflexivity | lia].
Qed.

(** [X3] A write whose [length] does not exceed the data the caller holds
    hands the host method exactly the first [length] bytes of it (nothing
    when [length] is zero or negative) together with [length] itself, and
    returns the host's answer. *)
Theorem write_hands_over_prefix (data : list byte) (length : Z)
    (s : State H) :
  length <= Z.of_nat (List.length data) ->
  (resolution_succeeds (WriteSerial data length) s ->
   count_of (fst (call (WriteSerial data length) s))
     = fst (java_writeSerial host (take (Z.to_nat length) data) length
              (peer s)) /\
   peer (snd (call (WriteSerial data length) s))
     = snd (java_writeSerial host (take (Z.to_nat length) data) length
              (peer s))) /\
  (resolution_succeeds (WriteTCP data length) s ->
   count_of (fst (call (WriteTCP data length) s))
     = fst (java_writeTCP host (take (Z.to_nat length) data) length
              (peer s)) /\
   peer (snd (call (WriteTCP data length) s))
     = snd (java_writeTCP host (take (Z.to_nat length) data) length
              (peer s))).
Proof.
  intros Hl. split; intros Hr;
    destruct (success_run _ s Hr) as (Hv & Hp & _);
    apply returned_int in Hv; cbn in Hv, Hp;
    rewrite transfer_in_take in Hv, Hp by exact Hl; by split.
Qed.

(** [X4] Whatever the host answers and on every path, a read leaves the
    caller's buffer untouched beyond its first [maxLength] bytes, and a
    buffer of at least [maxLength] bytes keeps its length: the copy never
    runs past the size the caller announced. *)
Theorem read_stays_within_max_length (op : Op) (maxLength : Z)
    (s : State H) :
  is_read op = true ->
  transfer_length op = Some maxLength ->
  drop (Z.to_nat maxLength) (buffer_after (fst (call op s)))
    = drop (Z.to_nat maxLength) (caller_buffer op) /\
  ((Z.to_nat maxLength <= List.length (caller_buffer op))%nat ->
   List.length (buffer_after (fst (call op s)))
     = List.length (caller_buffer op)).
Proof.
  intros Hr Hlen. destruct s as [te aa cf mf [je ir] p l tr].
  destruct op; try discriminate Hr; injection Hlen as <-; unfold_ops; cbn.
  all: repeat step; try (split; reflexivity).
  all: apply get_region_frame; [assumption |].
  all: by rewrite overwrite_length, length_replicate.
Qed.

(** [X5] A read passes the host's count on unchecked: when the value it
    returns exceeds [maxLength], nothing was copied and the caller's
    buffer is as it was, although the return value announces more bytes
    than the buffer was sized for. *)
Theorem read_count_above_max_copies_nothing (op : Op) (maxLength : Z)
    (s : State H) :
  is_read op = true ->
  transfer_length op = Some maxLength ->
  maxLength < count_of (fst (call op s)) ->
  buffer_after (fst (call op s)) = caller_buffer op.
Proof.
  intros Hr Hlen. destruct s as [te aa cf mf [je ir] p l tr].
  destruct op; try discriminate Hr; injection Hlen as <-; unfold_ops; cbn.
  all: repeat step; try reflexivity.
  all: intros Hgt; exfalso.
  all: match goal with
       | Hv : region_valid _ 0 _ = true |- _ =>
           apply region_valid_bounds in Hv;
           rewrite overwrite_length, length_replicate in Hv
       end; lia.
Qed.

(** [X6] When the JNI environment of the current thread cannot be
    obtained, an operation calls no function of [JNIEnv] at all and
    leaves the local references alone: a null environment is never
    dereferenced. *)
Theorem no_env_no_jni_call (op : Op) (s : State H) :
  thread_env s = false ->
  existsb is_env_call (events op s) = false /\
  locals (snd (call op s)) = locals s.
Proof.
  intros Hte. destruct s as [te aa cf mf [je ir] p l tr].
  cbn in Hte. subst te.
  destruct op; unfold_ops; cbn.
  all: repeat step; trace_norm; split; reflexivity.
Qed.

(** [X7] On every path the runtime calls of an operation come in the
    order of the forwarding pattern: obtain the environment, allocate the
    transfer array, copy in, resolve the class, resolve the method,
    invoke the host, copy out, release.  In particular a copy-in always
    precedes the host call, a copy-out always follows it, and nothing is
    released before the host call. *)
Theorem calls_follow_forwarding_pattern (op : Op) (s : State H) :
  ascending (omap phase (events op s)) = true.
Proof.
  destruct s as [te aa cf mf [je ir] p l tr].
  destruct op; unfold_ops; cbn.
  all: repeat step; trace_norm; reflexivity.
Qed.

(** [X8] Within a call a local reference is handed to the runtime (as the
    array of a region copy or of the host call, as the class of a method
    lookup) only between its allocation and its release: no reference is
    used after [DeleteLocalRef], and none that the call did not obtain
    itself. *)
Theorem references_used_only_while_live (op : Op) (s : State H)
    (r : jref) :
  scoped r false (events op s) = true.
Proof.
  destruct s as [te aa cf mf [je ir] p l tr].
  destruct op; unfold_ops; cbn.
  all: repeat step; trace_norm; count_refs.
Qed.

Lemma call_restores_locals (op : Op) (s : State H) :
  locals (snd (call op s)) = locals s.
Proof.
  destruct s as [te aa cf mf [je ir] p l tr].
  destruct op; unfold_ops; cbn.
  all: repeat step; try reflexivity.
  all: restore_locals.
Qed.

(** [X9] However many operations a caller issues one after the other, and
    whichever of them fail, the table of live local references ends as it
    began and the handler still holds the handles it was built with:
    calls do not accumulate references. *)
Theorem sequence_leaves_no_reference (ops : list Op) (s : State H) :
  locals (snd (call_all ops s)) = locals s /\
  self (snd (call_all ops s)) = self s.
Proof.
  revert s. induction ops as [| op ops IH]; intros s; [by split |].
  cbn [call_all]. unfold bind, ret.
  destruct (call op s) as [r s1] eqn:E1.
  pose proof (call_restores_locals op s) as Hl.
  pose proof (call_preserves_self op s) as Hs.
  rewrite E1 in Hl, Hs. cbn in Hl, Hs.
  destruct (IH s1) as (IHl & IHs).
  destruct (call_all ops s1) as [rs s2]. cbn in *.
  split; congruence.
Qed.

(** [X10] [openSerial] and [openTCP] report every outcome: each call
    writes exactly one log line, an error line when a resolution step
    fails and a debug line when the host was reached. *)
Theorem open_logs_every_outcome (op : Op) (s : State H) :
  is_open op = true ->
  count is_log (events op s) = 1%nat /\
  (resolution_fails op s -> count is_error_log (events op s) = 1%nat) /\
  (resolution_succeeds op s -> count is_error_log (events op s) = 0%nat).
Proof.
  intros Ho. destruct s as [te aa cf mf [je ir] p l tr].
  unfold resolution_fails, resolution_succeeds, handles_null, handles_set,
    alloc_fails, method_resolves.
  destruct op; try discriminate Ho; unfold_ops; cbn.
  all: repeat step; trace_norm.
  all: split_and!; try reflexivity.
  all: try (intros [[?|?]|[?|[(? & ? & ?)|[?|?]]]]; congruence).
  all: intros ([[? ?] [? ?]] & ? & _ & ? & ?); congruence.
Qed.

(** [X11] [isSerialOpen], [isTCPOpen] and [hasDataAvailable] never write
    a log line, on any path: a failed resolution gives [false] and
    nothing else, exactly like a host that answers [false]. *)
Theorem queries_never_log (op : Op) (s : State H) :
  is_query op = true ->
  existsb is_log (events op s) = false /\
  (resolution_fails op s -> fst (call op s) = RBool false).
Proof.
  intros Hq. split.
  - destruct s as [te aa cf mf [je ir] p l tr].
    destruct op; try discriminate Hq; unfold_ops; cbn.
    all: repeat step; trace_norm; reflexivity.
  - intros Hf. destruct (failure_sentinel op s Hf) as (-> & _).
    by destruct op.
Qed.

(** [X12] A read or a write writes a log line in one case only: the
    handles are set, the environment was obtained, and the transfer array
    could not be allocated.  Every other failure of a data operation, and
    its success, is silent. *)
Theorem data_ops_log_allocation_failure_only (op : Op) (s : State H) :
  is_write op || is_read op = true ->
  existsb is_log (events op s) = true <->
  handles_set s /\ thread_env s = true /\ alloc_fails op s.
Proof.
  intros Hd. destruct s as [te aa cf mf [je ir] p l tr].
  unfold handles_set, alloc_fails.
  destruct op; try discriminate Hd; unfold_ops; cbn.
  all: repeat step; trace_norm.
  all: split;
    [ first [ discriminate
            | intros _; split_and!; eauto ]
    | first [ reflexivity
            | intros ([[? ?] [? ?]] & ? & (? & ? & ?)); congruence ] ].
Qed.

(** [X13] [closeSerial] and [closeTCP] write a log line exactly when the
    host's close method was invoked. *)
Theorem close_logs_iff_forwarded (op : Op) (s : State H) :
  is_close op = true ->
  existsb is_log (events op s) = host_invoked (events op s) /\
  (host_invoked (events op s) = true <-> resolution_succeeds op s).
Proof.
  intros Hc. destruct s as [te aa cf mf [je ir] p l tr].
  unfold resolution_succeeds, handles_set, alloc_succeeds, method_resolves.
  destruct op; try discriminate Hc; unfold_ops; cbn.
  all: repeat step; trace_norm.
  all: split; [reflexivity |].
  all: split;
    [ first [ discriminate
            | intros _; split_and!; eauto; discriminate ]
    | first [ reflexivity
            | intros ([[? ?] [? ?]] & ? & _ & ? & ?); congruence ] ].
Qed.

End Bridge.

(** ** Concrete runs *)

(** A write of two bytes through the loopback host returns the host's
    answer, [2]. *)
Lemma forwards_host_result_witness :
  resolution_succeeds (WriteSerial some_bytes 2) (ready []) /\
  returned (fst (call loopback (WriteSerial some_bytes 2) (ready [])))
    = VInt 2 /\
  host_invoked (events loopback (WriteSerial some_bytes 2) (ready [])) = true.
Proof.
  assert (Hr : resolution_succeeds (WriteSerial some_bytes 2) (ready [])).
  { unfold resolution_succeeds, handles_set.
    split_and!; try reflexivity; eexists; reflexivity. }
  split; [exact Hr |].
  exact (forwards_host_result loopback (WriteSerial some_bytes 2) (ready []) Hr).
Defined.

(** Without an [irManager], [readTCP] returns [0] and leaves the buffer. *)
Lemma null_handles_return_sentinel_witness :
  handles_null (unbound some_bytes) /\
  fst (call loopback (ReadTCP blank 4) (unbound some_bytes)) = RRead 0 blank /\
  forallb is_log (events loopback (ReadTCP blank 4) (unbound some_bytes))
    = true /\
  host_invoked (events loopback (ReadTCP blank 4) (unbound some_bytes))
    = false /\
  peer (snd (call loopback (ReadTCP blank 4) (unbound some_bytes)))
    = some_bytes.
Proof.
  assert (Hn : handles_null (unbound some_bytes)) by (right; reflexivity).
  split; [exact Hn |].
  exact (null_handles_return_sentinel loopback (ReadTCP blank 4)
           (unbound some_bytes) Hn).
Defined.

(** [writeTCP] without memory for the transfer array. *)
Lemma write_failure_returns_minus_one_witness :
  resolution_fails (WriteTCP some_bytes 3) (out_of_memory []) /\
  fst (call loopback (WriteTCP some_bytes 3) (out_of_memory [])) = RInt (-1) /\
  host_invoked (events loopback (WriteTCP some_bytes 3) (out_of_memory []))
    = false /\
  peer (snd (call loopback (WriteTCP some_bytes 3) (out_of_memory []))) = [].
Proof.
  assert (Hf : resolution_fails (WriteTCP some_bytes 3) (out_of_memory [])).
  { right; right; left. exists 3. split; reflexivity. }
  split; [exact Hf |].
  exact (write_failure_returns_minus_one loopback (WriteTCP some_bytes 3)
           (out_of_memory []) eq_refl Hf).
Defined.

(** [readSerial] when the class does not declare the method. *)
Lemma read_failure_returns_zero_witness :
  resolution_fails (ReadSerial blank 4) (stripped some_bytes) /\
  returned (fst (call loopback (ReadSerial blank 4) (stripped some_bytes)))
    = VInt 0 /\
  host_invoked (events loopback (ReadSerial blank 4) (stripped some_bytes))
    = false /\
  peer (snd (call loopback (ReadSerial blank 4) (stripped some_bytes)))
    = some_bytes.
Proof.
  assert (Hf : resolution_fails (ReadSerial blank 4) (stripped some_bytes)).
  { right; right; right; right. reflexivity. }
  split; [exact Hf |].
  exact (read_failure_returns_zero loopback (ReadSerial blank 4)
           (stripped some_bytes) eq_refl Hf).
Defined.

(** [hasDataAvailable] when the class does not declare the method, although
    the host object has data. *)
Lemma flag_failure_returns_false_witness :
  method_resolves HasDataAvailable (stripped some_bytes) = false /\
  fst (call loopback HasDataAvailable (stripped some_bytes)) = RBool false.
Proof.
  split; [reflexivity |].
  apply (flag_failure_returns_false loopback HasDataAvailable
           (stripped some_bytes) eq_refl).
  right; right; right. reflexivity.
Defined.

(** [closeSerial] on a handler without [irManager]. *)
Lemma close_fails_silently_witness :
  handles_null (unbound some_bytes) /\
  fst (call loopback CloseSerial (unbound some_bytes)) = RVoid /\
  host_invoked (events loopback CloseSerial (unbound some_bytes)) = false /\
  peer (snd (call loopback CloseSerial (unbound some_bytes))) = some_bytes /\
  existsb is_log (events loopback CloseSerial (unbound some_bytes)) = false /\
  (forall s' : State (list byte),
     fst (call loopback CloseSerial s')
       = fst (call loopback CloseSerial (unbound some_bytes))).
Proof.
  assert (Hn : handles_null (unbound some_bytes)) by (right; reflexivity).
  split; [exact Hn |].
  exact (close_fails_silently loopback CloseSerial (unbound some_bytes)
           eq_refl (or_introl Hn)).
Defined.

(** [openSerial] reaches the host object and no byte buffer crosses the
    boundary: not every operation marshals one. *)
Lemma every_operation_marshals_counterexample :
  host_invoked (events loopback OpenSerial (ready some_bytes)) = true /\
  marshals_buffer (events loopback OpenSerial (ready some_bytes)) = false /\
  existsb touches_byte_array (events loopback OpenSerial (ready some_bytes))
    = false.
Proof. split_and!; reflexivity. Qed.

(** A read of up to four bytes when three are pending: the copy-out
    follows the host call and brings the three bytes. *)
Lemma buffer_marshalled_only_by_data_ops_witness :
  host_invoked (events loopback (ReadSerial blank 4) (ready some_bytes))
    = true /\
  events loopback (ReadSerial blank 4) (ready some_bytes)
    = read_events (ReadSerial blank 4) 4 3 2%nat 0%nat 1%nat /\
  peer (snd (call loopback (ReadSerial blank 4) (ready some_bytes))) = [] /\
  buffer_after (fst (call loopback (ReadSerial blank 4) (ready some_bytes)))
    = [Byte.x01; Byte.x02; Byte.x03; Byte.xff].
Proof.
  split; [reflexivity |]. split; [reflexivity |].
  assert (Hn : 0 < count_of (fst (call loopback (ReadSerial blank 4)
                                    (ready some_bytes))) <= 4).
  { vm_compute. split; [reflexivity | discriminate]. }
  destruct (proj1 (proj2 (buffer_marshalled_only_by_data_ops loopback
                            (ReadSerial blank 4) (ready some_bytes)
                            eq_refl))
              eq_refl 4 eq_refl) as (_ & Hp & Hb).
  split; [exact Hp | exact (Hb Hn)].
Defined.

(** The host answers [3] for a transfer array of two elements: the count
    is positive, yet the region request leaves the array and the caller's
    buffer stays as it was, not holding three bytes of the array. *)
Lemma read_copies_count_bytes_counterexample :
  resolution_succeeds (ReadSerial blank 2) (ready some_bytes) /\
  fst (call eager (ReadSerial blank 2) (ready some_bytes)) = RRead 3 blank /\
  host_array eager (ReadSerial blank 2) some_bytes = [Byte.x01; Byte.x02] /\
  blank <> take 3 (host_array eager (ReadSerial blank 2) some_bytes)
             ++ drop 3 blank.
Proof.
  split_and!; try reflexivity; try discriminate.
  unfold resolution_succeeds, handles_set.
  split_and!; try reflexivity; eexists; reflexivity.
Qed.

(** A read of up to four bytes when three are pending: three bytes are
    copied and the fourth byte of the buffer is kept. *)
Lemma read_copies_out_within_bounds_witness :
  is_read (ReadSerial blank 4) = true /\
  resolution_succeeds (ReadSerial blank 4) (ready some_bytes) /\
  0 < count_of (fst (call loopback (ReadSerial blank 4) (ready some_bytes)))
    <= 4 /\
  buffer_after (fst (call loopback (ReadSerial blank 4) (ready some_bytes)))
    = [Byte.x01; Byte.x02; Byte.x03; Byte.xff].
Proof.
  assert (Hr : resolution_succeeds (ReadSerial blank 4) (ready some_bytes)).
  { unfold resolution_succeeds, handles_set.
    split_and!; try reflexivity; eexists; reflexivity. }
  assert (Hn : 0 < count_of (fst (call loopback (ReadSerial blank 4)
                                    (ready some_bytes))) <= 4).
  { vm_compute. split; [reflexivity | discriminate]. }
  split; [reflexivity |]. split; [exact Hr |]. split; [exact Hn |].
  exact (proj1 (proj2 (read_copies_out_within_bounds loopback
                         (ReadSerial blank 4) (ready some_bytes) eq_refl)
                  Hr 4 eq_refl Hn)).
Defined.

(** A handler built without [irManager], after one call and some
    unrelated activity of the runtime, still answers [writeSerial] with
    [-1]. *)
Lemma handles_fixed_for_life_witness :
  lifetime loopback (Some 1%nat) None
    (snd (call loopback OpenSerial
            (snd (construct (Some 1%nat) None (ready some_bytes))))) /\
  fst (call loopback (WriteSerial some_bytes 3)
         (snd (call loopback OpenSerial
                 (snd (construct (Some 1%nat) None (ready some_bytes))))))
    = RInt (-1).
Proof.
  assert (Hl : lifetime loopback (Some 1%nat) None
                 (snd (call loopback OpenSerial
                         (snd (construct (Some 1%nat) None
                                 (ready some_bytes)))))).
  { apply life_call, life_constructed. }
  split; [exact Hl |].
  exact (proj1 (proj2 (proj2 (handles_fixed_for_life loopback (Some 1%nat)
                                None _ Hl))
                  (or_intror eq_refl) (WriteSerial some_bytes 3))).
Defined.

(** [openSerial] through the loopback host: one host call. *)
Lemma invokes_host_once_witness :
  resolution_succeeds OpenSerial (ready some_bytes) /\
  count is_host_call (events loopback OpenSerial (ready some_bytes))
    = 1%nat /\
  peer (snd (call loopback OpenSerial (ready some_bytes))) = some_bytes.
Proof.
  assert (Hr : resolution_succeeds OpenSerial (ready some_bytes)).
  { unfold resolution_succeeds, handles_set.
    split_and!; try reflexivity; eexists; reflexivity. }
  split; [exact Hr |].
  exact (invokes_host_once loopback OpenSerial (ready some_bytes) Hr).
Defined.

(** Two of three bytes written: the loopback host queues the first two. *)
Lemma write_hands_over_prefix_witness :
  2 <= Z.of_nat (List.length some_bytes) /\
  resolution_succeeds (WriteSerial some_bytes 2) (ready []) /\
  count_of (fst (call loopback (WriteSerial some_bytes 2) (ready []))) = 2 /\
  peer (snd (call loopback (WriteSerial some_bytes 2) (ready [])))
    = [Byte.x01; Byte.x02].
Proof.
  assert (Hl : 2 <= Z.of_nat (List.length some_bytes)) by (cbn; lia).
  assert (Hr : resolution_succeeds (WriteSerial some_bytes 2) (ready [])).
  { unfold resolution_succeeds, handles_set.
    split_and!; try reflexivity; eexists; reflexivity. }
  split; [exact Hl |]. split; [exact Hr |].
  exact (proj1 (write_hands_over_prefix loopback some_bytes 2 (ready []) Hl)
           Hr).
Defined.

(** The eager host answers [3] for [maxLength = 2]: the four-byte buffer
    keeps its length and its last two bytes. *)
Lemma read_stays_within_max_length_witness :
  is_read (ReadTCP blank 2) = true /\
  (Z.to_nat 2 <= List.length (caller_buffer (ReadTCP blank 2)))%nat /\
  drop (Z.to_nat 2)
    (buffer_after (fst (call eager (ReadTCP blank 2) (ready some_bytes))))
    = [Byte.xff; Byte.xff] /\
  List.length
    (buffer_after (fst (call eager (ReadTCP blank 2) (ready some_bytes))))
    = 4%nat.
Proof.
  assert (Hb : (Z.to_nat 2 <= List.length (caller_buffer (ReadTCP blank 2)))%nat)
    by (cbn; lia).
  split; [reflexivity |]. split; [exact Hb |].
  destruct (read_stays_within_max_length eager (ReadTCP blank 2) 2
              (ready some_bytes) eq_refl eq_refl) as [Hd Hn].
  split; [exact Hd | exact (Hn Hb)].
Defined.

(** The eager host answers [3] for [maxLength = 2]: nothing is copied. *)
Lemma read_count_above_max_copies_nothing_witness :
  2 < count_of (fst (call eager (ReadSerial blank 2) (ready some_bytes))) /\
  buffer_after (fst (call eager (ReadSerial blank 2) (ready some_bytes)))
    = blank.
Proof.
  assert (Hn : 2 < count_of (fst (call eager (ReadSerial blank 2)
                                    (ready some_bytes))))
    by (vm_compute; reflexivity).
  split; [exact Hn |].
  exact (read_count_above_max_copies_nothing eager (ReadSerial blank 2) 2
           (ready some_bytes) eq_refl eq_refl Hn).
Defined.

(** A write from a thread without environment. *)
Lemma no_env_no_jni_call_witness :
  thread_env (detached some_bytes) = false /\
  existsb is_env_call
    (events loopback (WriteSerial some_bytes 3) (detached some_bytes))
    = false /\
  locals (snd (call loopback (WriteSerial some_bytes 3)
                 (detached some_bytes))) = ∅.
Proof.
  split; [reflexivity |].
  exact (no_env_no_jni_call loopback (WriteSerial some_bytes 3)
           (detached some_bytes) eq_refl).
Defined.

(** [openTCP] when the class declares no method: one error line. *)
Lemma open_logs_every_outcome_witness :
  is_open OpenTCP = true /\
  resolution_fails OpenTCP (stripped some_bytes) /\
  count is_log (events loopback OpenTCP (stripped some_bytes)) = 1%nat /\
  count is_error_log (events loopback OpenTCP (stripped some_bytes)) = 1%nat.
Proof.
  assert (Hf : resolution_fails OpenTCP (stripped some_bytes)).
  { right; right; right; right. reflexivity. }
  split; [reflexivity |]. split; [exact Hf |].
  destruct (open_logs_every_outcome loopback OpenTCP (stripped some_bytes)
              eq_refl) as (Hc & He & _).
  split; [exact Hc | exact (He Hf)].
Defined.

(** [hasDataAvailable] without [irManager], although data is pending. *)
Lemma queries_never_log_witness :
  is_query HasDataAvailable = true /\
  resolution_fails HasDataAvailable (unbound some_bytes) /\
  existsb is_log (events loopback HasDataAvailable (unbound some_bytes))
    = false /\
  fst (call loopback HasDataAvailable (unbound some_bytes)) = RBool false.
Proof.
  assert (Hf : resolution_fails HasDataAvailable (unbound some_bytes)).
  { left. right. reflexivity. }
  split; [reflexivity |]. split; [exact Hf |].
  destruct (queries_never_log loopback HasDataAvailable (unbound some_bytes)
              eq_refl) as (Hl & Hr).
  split; [exact Hl | exact (Hr Hf)].
Defined.

(** A read without memory for the transfer array logs. *)
Lemma data_ops_log_allocation_failure_only_witness :
  is_write (ReadSerial blank 4) || is_read (ReadSerial blank 4) = true /\
  handles_set (out_of_memory some_bytes) /\
  thread_env (out_of_memory some_bytes) = true /\
  alloc_fails (ReadSerial blank 4) (out_of_memory some_bytes) /\
  existsb is_log (events loopback (ReadSerial blank 4)
                    (out_of_memory some_bytes)) = true.
Proof.
  assert (Hh : handles_set (out_of_memory some_bytes))
    by (split; eexists; reflexivity).
  assert (Ha : alloc_fails (ReadSerial blank 4) (out_of_memory some_bytes))
    by (exists 4; split; reflexivity).
  split; [reflexivity |]. split; [exact Hh |]. split; [reflexivity |].
  split; [exact Ha |].
  exact (proj2 (data_ops_log_allocation_failure_only loopback
                  (ReadSerial blank 4) (out_of_memory some_bytes) eq_refl)
           (conj Hh (conj eq_refl Ha))).
Defined.

(** [closeTCP] when the class declares no method: no call, no line. *)
Lemma close_logs_iff_forwarded_witness :
  is_close CloseTCP = true /\
  existsb is_log (events loopback CloseTCP (stripped some_bytes))
    = host_invoked (events loopback CloseTCP (stripped some_bytes)) /\
  host_invoked (events loopback CloseTCP (stripped some_bytes)) = false.
Proof.
  split; [reflexivity |].
  split; [| reflexivity].
  exact (proj1 (close_logs_iff_forwarded loopback CloseTCP
                  (stripped some_bytes) eq_refl)).
Defined.
